(** * A shallow embedding of [django_iam_dbauth/aws/database_wrapper.py]

    The module caches RDS IAM authentication tokens in a global
    [TokenCache] keyed by the connection identity
    [(hostname, port, username, region_name)] and injects them as the
    [password] of Django's connection parameters.

    Modelling choices:
    - Python values that occur in a connection-parameter dict are the
      inductive [value]; a dict is a [gmap string value].
    - Dicts are mutable objects: they live in a heap [gmap N dict], and
      [get_aws_connection_params] receives and returns a reference, so
      that [params.copy()] and the caller's dict are kept apart.
    - The global [_token_cache] is part of the state; its keys are
      Python tuples, compared with Python's [==] (under which [True == 1]),
      modelled by normalising each component with [canon].
    - [time.time()] is a reading of the environment (integral seconds);
      the two readings a call can make ([get_token], [set_token]) are
      given separately since the network call sits between them.
    - boto3 (client construction and [generate_db_auth_token]) and
      [getpass.getuser()] are external collaborators given by the
      environment; the token generation requests are recorded in the
      state, so that "no token generation call" can be stated.
      [get_aws_connection_params_with] takes the outcome of
      [getpass.getuser()], a name or an exception;
      [get_aws_connection_params] is the case where it returns the name
      [os_user].
    - The lock of [TokenCache] serialises accesses; the model is
      sequential. *)

From stdpp Require Import base gmap strings list fin_maps.
From Stdlib Require Import ZArith String.

Open Scope Z_scope.

(** ** Python values and dicts *)

Inductive value :=
  | VNone
  | VBool (b : bool)
  | VInt (z : Z)
  | VStr (s : string).

#[global] Instance value_eq_dec : EqDecision value.
Proof. solve_decision. Defined.

Definition value_to_sum (v : value) : unit + bool + Z + string :=
  match v with
  | VNone => inl (inl (inl ()))
  | VBool b => inl (inl (inr b))
  | VInt z => inl (inr z)
  | VStr s => inr s
  end.

Definition value_of_sum (x : unit + bool + Z + string) : value :=
  match x with
  | inl (inl (inl _)) => VNone
  | inl (inl (inr b)) => VBool b
  | inl (inr z) => VInt z
  | inr s => VStr s
  end.

#[global] Instance value_countable : Countable value.
Proof. apply (inj_countable' value_to_sum value_of_sum). by intros []. Defined.

(** Python truthiness ([bool(v)]). *)
Definition truthy (v : value) : bool :=
  match v with
  | VNone => false
  | VBool b => b
  | VInt z => negb (z =? 0)
  | VStr s => negb (String.eqb s "")
  end.

(** Python's [==] identifies [True] with [1] and [False] with [0] (and
    they hash alike), so a dict keyed by tuples treats them as the same
    key; [canon] picks the representative. *)
Definition canon (v : value) : value :=
  match v with
  | VBool b => VInt (Z.b2z b)
  | _ => v
  end.

Abbreviation dict := (gmap string value).

(** ** Program state *)

Definition cache_key : Type := value * value * value * value.

Definition ckey (k : cache_key) : cache_key :=
  let '(h, p, u, r) := k in (canon h, canon p, canon u, canon r).

(** A boto3 RDS client; only its region matters to the module. *)
Inductive rds_client := RdsClient (region_name : value).

(** An exception raised by a collaborator, propagated as it is. *)
Definition exn := string.

Record state := {
  heap : gmap N dict;
  (** [_token_cache._cache]: key ↦ (token, expiration) *)
  tcache : gmap cache_key (string * Z);
  (** every [generate_db_auth_token] request, most recent first:
      (client region, DBHostname, Port, DBUsername) *)
  gen_calls : list (value * value * value * value)
}.

Definition set_heap (h : gmap N dict) (s : state) : state :=
  {| heap := h; tcache := tcache s; gen_calls := gen_calls s |}.
Definition set_tcache (c : gmap cache_key (string * Z)) (s : state) : state :=
  {| heap := heap s; tcache := c; gen_calls := gen_calls s |}.
Definition add_gen_call (x : value * value * value * value) (s : state) : state :=
  {| heap := heap s; tcache := tcache s; gen_calls := x :: gen_calls s |}.

Record env := {
  (** [time.time()] as read by [get_token] *)
  time_get : Z;
  (** [time.time()] as read by [set_token] *)
  time_set : Z;
  (** the name [getpass.getuser()] returns *)
  os_user : string;
  (** [_get_rds_client(region_name)]: [Some e] when it raises [e] *)
  client_error : value -> option exn;
  (** [client.generate_db_auth_token(DBHostname, Port, DBUsername)] *)
  generate : rds_client -> value -> value -> value -> exn + string
}.

(** ** A state and exception monad *)

Inductive result (A : Type) := Ok (a : A) | Raise (e : exn).
Arguments Ok {A} a.
Arguments Raise {A} e.

Definition M (A : Type) : Type := state -> result A * state.

Definition ret {A} (a : A) : M A := fun s => (Ok a, s).
Definition bind {A B} (m : M A) (k : A -> M B) : M B :=
  fun s => match m s with
           | (Ok a, s') => k a s'
           | (Raise e, s') => (Raise e, s')
           end.

Notation "'let*' x ':=' m 'in' k" := (bind m (fun x => k))
  (at level 200, x binder, m at level 100, k at level 200).

(** ** Dict operations on the heap *)

(** Referring to a dict that does not exist cannot happen in Python; the
    model raises. *)
Definition dangling : exn := "dangling reference".

(** [d.copy()]: a new dict at a fresh reference. *)
Definition dict_copy (l : N) : M N :=
  fun s => match heap s !! l with
           | Some d => let l' := fresh (dom (heap s)) in
                       (Ok l', set_heap (<[l' := d]> (heap s)) s)
           | None => (Raise dangling, s)
           end.

(** [d.get(k, default)] as a pure function of the dict *)
Definition get_default (d : dict) (k : string) (default : value) : value :=
  match d !! k with Some v => v | None => default end.

(** [d.pop(k, default)] *)
Definition dict_pop (l : N) (k : string) (default : value) : M value :=
  fun s => match heap s !! l with
           | Some d => (Ok (get_default d k default),
                        set_heap (<[l := delete k d]> (heap s)) s)
           | None => (Raise dangling, s)
           end.

(** [d.get(k, default)] *)
Definition dict_get (l : N) (k : string) (default : value) : M value :=
  fun s => match heap s !! l with
           | Some d => (Ok (get_default d k default), s)
           | None => (Raise dangling, s)
           end.

(** [d[k] = v] *)
Definition dict_setitem (l : N) (k : string) (v : value) : M unit :=
  fun s => match heap s !! l with
           | Some d => (Ok (), set_heap (<[l := <[k := v]> d]> (heap s)) s)
           | None => (Raise dangling, s)
           end.

(** ** The module *)

(** [TOKEN_EXPIRATION_TIME = 10 * 60] *)
Definition TOKEN_EXPIRATION_TIME : Z := 10 * 60.

Section Module.

Variable E : env.

(** [TokenCache.get_token] *)
Definition get_token (key : cache_key) : M (option string) :=
  fun s => match tcache s !! ckey key with
           | Some (token, expiration) =>
               if time_get E <? expiration then (Ok (Some token), s)
               else (Ok None, set_tcache (delete (ckey key) (tcache s)) s)
           | None => (Ok None, s)
           end.

(** [TokenCache.set_token] *)
Definition set_token (key : cache_key) (token : string) : M unit :=
  fun s => (Ok (), set_tcache (<[ckey key := (token, time_set E + TOKEN_EXPIRATION_TIME - 30)]>
                                 (tcache s)) s).

(** [_get_rds_client(region_name)] *)
Definition get_rds_client (region_name : value) : M rds_client :=
  fun s => match client_error E region_name with
           | Some e => (Raise e, s)
           | None => (Ok (RdsClient region_name), s)
           end.

(** [rds_client.generate_db_auth_token(DBHostname=..., Port=..., DBUsername=...)] *)
Definition generate_db_auth_token (c : rds_client) (hostname port username : value)
  : M string :=
  fun s => let 'RdsClient r := c in
           let s' := add_gen_call (r, hostname, port, username) s in
           match generate E c hostname port username with
           | inl e => (Raise e, s')
           | inr token => (Ok token, s')
           end.

(** Lines 74-86 of [get_aws_connection_params]: generate a new token if
    the cached token is not found or expired, cache it, and use it. *)
Definition generate_new_token (params : N) (region_name hostname port username : value)
  (cache_key : cache_key) : M N :=
  let* rds_client := get_rds_client region_name in
  let* token := generate_db_auth_token rds_client hostname port username in
  let* _ := set_token cache_key token in
  let* _ := dict_setitem params "password" (VStr token) in
  ret params.

(** [getpass.getuser()], given by its outcome [gu]: the user name, or the
    exception it raises when no user name can be found. *)
Definition getuser (gu : exn + string) : M value :=
  fun s => match gu with
           | inl e => (Raise e, s)
           | inr u => (Ok (VStr u), s)
           end.

(** [get_aws_connection_params], for the outcome [gu] that
    [getpass.getuser()] has when it is called *)
Definition get_aws_connection_params_with (gu : exn + string) (params : N) : M N :=
  let* params := dict_copy params in
  let* enabled := dict_pop params "use_iam_auth" VNone in
  if negb (truthy enabled) then ret params else
  let* region_name := dict_pop params "region_name" VNone in
  let* hostname := dict_get params "host" (VStr "localhost") in
  let* port := dict_get params "port" (VInt 5432) in
  let* user := dict_get params "user" VNone in
  (* [params.get("user") or getpass.getuser()] *)
  let* username := if truthy user then ret user else getuser gu in
  let cache_key := (hostname, port, username, region_name) in
  let* cached_token := get_token cache_key in
  match cached_token with
  | Some t =>
      (* [if cached_token:] tests the truthiness of the string *)
      if truthy (VStr t) then
        let* _ := dict_setitem params "password" (VStr t) in
        ret params
      else generate_new_token params region_name hostname port username cache_key
  | None => generate_new_token params region_name hostname port username cache_key
  end.

(** [get_aws_connection_params] where [getpass.getuser()] returns the
    name [os_user E] *)
Definition get_aws_connection_params (params : N) : M N :=
  get_aws_connection_params_with (inr (os_user E)) params.

End Module.

(** ** Sessions and RDS clients (lines 8-24)

    [get_aws_connection_params] above takes [_get_rds_client] as a
    collaborator of its environment ([client_error]). Here the function
    itself is embedded with the state it keeps: the thread-local
    [_thread_local.session] of every thread, and the process-wide
    [functools.lru_cache(maxsize=32)] of [_get_rds_client]. boto3 objects
    are records with an identity ([*_id]) drawn from a counter, so that
    "the same object" can be stated. *)

Module Clients.

Record session := { session_id : N; session_region : value }.

(** The key [functools.lru_cache] makes for the single positional argument
    of [_get_rds_client(region_name)] ([functools._make_key], typed=False):
    an [int] or a [str] is its own key, any other value is wrapped in a
    1-tuple. Python's [==] on such keys is equality of [lru_key]: a bare
    key never equals a tuple, and the values wrapped in tuples (None, bools)
    are equal only to themselves; so [1] and [True] are distinct keys. *)
Inductive lru_key := KeyBare (v : value) | KeyTuple (v : value).

#[global] Instance lru_key_eq_dec : EqDecision lru_key.
Proof. solve_decision. Defined.

Definition _make_key (region_name : value) : lru_key :=
  match region_name with
  | VInt _ | VStr _ => KeyBare region_name
  | _ => KeyTuple region_name
  end.

(** A boto3 RDS client: the session that built it and its region. *)
Record client := { client_id : N; client_session : N; client_region : value }.

Record cstate := {
  (** thread id ↦ [_thread_local.session] of that thread, if set *)
  sessions : gmap N session;
  (** the [lru_cache] of [_get_rds_client]: (key, client), most recently
      used first *)
  lru : list (lru_key * client);
  (** next object identity *)
  next_id : N
}.

Record cenv := {
  (** [boto3.Session(region_name=...)]: [Some e] when it raises [e] *)
  session_error : value -> option exn;
  (** [session.client(service_name="rds", region_name=...)] for a session
      of the first region and the requested second one *)
  client_build_error : value -> value -> option exn
}.

(** [@lru_cache(maxsize=32)] *)
Definition LRU_MAXSIZE : nat := 32.

Section Clients.

Variable CE : cenv.

(** [_get_session(region_name)] called from thread [thread] *)
Definition _get_session (thread : N) (region_name : value) (s : cstate)
  : result session * cstate :=
  match sessions s !! thread with
  | Some sess => (Ok sess, s)
  | None =>
      match session_error CE region_name with
      | Some e => (Raise e, s)
      | None =>
          let sess := {| session_id := next_id s; session_region := region_name |} in
          (Ok sess, {| sessions := <[thread := sess]> (sessions s); lru := lru s;
                       next_id := N.succ (next_id s) |})
      end
  end.

(** [session.client(service_name="rds", region_name=region_name)] *)
Definition session_client (sess : session) (region_name : value) (s : cstate)
  : result client * cstate :=
  match client_build_error CE (session_region sess) region_name with
  | Some e => (Raise e, s)
  | None =>
      let c := {| client_id := next_id s; client_session := session_id sess;
                  client_region := region_name |} in
      (Ok c, {| sessions := sessions s; lru := lru s; next_id := N.succ (next_id s) |})
  end.

(** Lookup of a key in the [lru_cache]. *)
Fixpoint lru_find (k : lru_key) (l : list (lru_key * client)) : option client :=
  match l with
  | [] => None
  | (k', c) :: l' => if decide (k' = k) then Some c else lru_find k l'
  end.

(** Removing a key's link from the [lru_cache]. *)
Definition lru_unlink (k : lru_key) (l : list (lru_key * client)) : list (lru_key * client) :=
  filter (fun e => e.1 <> k) l.

(** The undecorated body of [_get_rds_client]. *)
Definition get_rds_client_body (thread : N) (region_name : value) (s : cstate)
  : result client * cstate :=
  match _get_session thread region_name s with
  | (Raise e, s') => (Raise e, s')
  | (Ok session, s') => session_client session region_name s'
  end.

(** [_get_rds_client(region_name)] called from thread [thread]: the
    [lru_cache] wrapper around the body. A hit moves the link to the
    front; a miss calls the body, and caches its result (exceptions are
    not cached), evicting the least recently used link when the cache
    is full. *)
Definition _get_rds_client (thread : N) (region_name : value) (s : cstate)
  : result client * cstate :=
  let key := _make_key region_name in
  match lru_find key (lru s) with
  | Some c =>
      (Ok c, {| sessions := sessions s;
                lru := (key, c) :: lru_unlink key (lru s);
                next_id := next_id s |})
  | None =>
      match get_rds_client_body thread region_name s with
      | (Raise e, s') => (Raise e, s')
      | (Ok c, s') =>
          let kept := if Nat.ltb (List.length (lru s')) LRU_MAXSIZE then lru s'
                      else removelast (lru s') in
          (Ok c, {| sessions := sessions s'; lru := (key, c) :: kept;
                    next_id := next_id s' |})
      end
  end.

End Clients.

(** What the cache keeps: one link per key, at most [maxsize] links, and
    every link keyed by its client's region. *)
Definition lru_wf (l : list (lru_key * client)) : Prop :=
  NoDup l.*1 /\ (List.length l <= LRU_MAXSIZE)%nat /\
  Forall (fun e => e.1 = _make_key (client_region e.2)) l.

End Clients.

(** ** Statement helpers *)

(** The connection identity [get_aws_connection_params] derives from the
    caller's dict [d] (lines 60-66). *)
Definition derived_key (os : string) (d : dict) : cache_key :=
  let user := get_default d "user" VNone in
  (get_default d "host" (VStr "localhost"),
   get_default d "port" (VInt 5432),
   (if truthy user then user else VStr os),
   get_default d "region_name" VNone).

Definition enabled_in (d : dict) : bool := truthy (get_default d "use_iam_auth" VNone).

(** ** Concrete inputs *)

Module Fixtures.

Definition st (h : gmap N dict) (c : gmap cache_key (string * Z)) : state :=
  {| heap := h; tcache := c; gen_calls := [] |}.

(** time 100 at the lookup, 101 at the store; OS user "alice" *)
Definition E_ok (tok : string) : env :=
  {| time_get := 100; time_set := 101; os_user := "alice";
     client_error := fun _ => None; generate := fun _ _ _ _ => inr tok |}.

Definition E_client_fails : env :=
  {| time_get := 100; time_set := 101; os_user := "alice";
     client_error := fun _ => Some "NoRegionError"%string;
     generate := fun _ _ _ _ => inr "unused"%string |}.

Definition E_gen_fails : env :=
  {| time_get := 100; time_set := 101; os_user := "alice";
     client_error := fun _ => None;
     generate := fun _ _ _ _ => inl "ClientError"%string |}.

Definition d_on : dict := {[ "use_iam_auth" := VBool true ]}.
Definition d_off : dict :=
  <["region_name" := VStr "us-east-1"]> {[ "use_iam_auth" := VBool false ]}.
Definition d_empty_user : dict := <["user" := VStr ""]> d_on.

(** the identity derived from [d_on] *)
Definition key_local : cache_key := (VStr "localhost", VInt 5432, VStr "alice", VNone).

Definition s_on : state := st {[ 0%N := d_on ]} ∅.
Definition s_off : state := st {[ 0%N := d_off ]} ∅.
Definition s_empty_user : state := st {[ 0%N := d_empty_user ]} ∅.
(** an entry for [key_local] that expired at time 50 *)
Definition s_stale : state := st {[ 0%N := d_on ]} {[ ckey key_local := ("old"%string, 50) ]}.
(** an unexpired empty token for [key_local] *)
Definition s_empty_tok : state := st {[ 0%N := d_on ]} {[ ckey key_local := (""%string, 200) ]}.

(** the state after a first call on [s_on] that produced "tok" *)
Definition s1_on : state := snd (get_aws_connection_params (E_ok "tok") 0%N s_on).

(** A boto3 that always succeeds, and one whose client constructor raises. *)
Definition CE_ok : Clients.cenv :=
  {| Clients.session_error := fun _ => None;
     Clients.client_build_error := fun _ _ => None |}.
Definition CE_client_fails : Clients.cenv :=
  {| Clients.session_error := fun _ => None;
     Clients.client_build_error := fun _ _ => Some "NoRegionError"%string |}.

Definition us_east : value := VStr "us-east-1".
Definition eu_west : value := VStr "eu-west-1".

(** no session, empty cache *)
Definition cs0 : Clients.cstate :=
  {| Clients.sessions := ∅; Clients.lru := []; Clients.next_id := 0 |}.

(** a full cache of 32 clients for the regions 1..32 (32 least recently
    used), thread 0 holding a session made for region 1 *)
Definition mk_link (i : nat) : Clients.lru_key * Clients.client :=
  (Clients._make_key (VInt (Z.of_nat i)),
   {| Clients.client_id := N.of_nat i; Clients.client_session := 0;
      Clients.client_region := VInt (Z.of_nat i) |}).
Definition older_links : list (Clients.lru_key * Clients.client) := map mk_link (seq 1 31).
Definition oldest_link : Clients.lru_key * Clients.client := mk_link 32.
Definition cs_full : Clients.cstate :=
  {| Clients.sessions := {[ 0%N := {| Clients.session_id := 0; Clients.session_region := VInt 1 |} ]};
     Clients.lru := older_links ++ [oldest_link]; Clients.next_id := 33 |}.

Definition ok_client (x : result Clients.client * Clients.cstate) : Clients.client :=
  match fst x with
  | Ok c => c
  | Raise _ => {| Clients.client_id := 0; Clients.client_session := 0;
                  Clients.client_region := VNone |}
  end.

(** thread 0 asks for us-east-1 on the full cache; thread 0 on the empty one *)
Definition c_full : Clients.client := ok_client (Clients._get_rds_client CE_ok 0%N us_east cs_full).
Definition cs_full' : Clients.cstate := snd (Clients._get_rds_client CE_ok 0%N us_east cs_full).
Definition c1 : Clients.client := ok_client (Clients._get_rds_client CE_ok 0%N us_east cs0).
Definition cs1 : Clients.cstate := snd (Clients._get_rds_client CE_ok 0%N us_east cs0).
Definition cs_err : Clients.cstate := snd (Clients._get_rds_client CE_client_fails 0%N us_east cs0).
Definition sess1 : Clients.session :=
  {| Clients.session_id := 0; Clients.session_region := us_east |}.
Definition ss1 : Clients.cstate := snd (Clients._get_session CE_ok 3%N us_east cs0).

(** the state after a call on [s_on] whose token generation raised *)
Definition s_gen_err : state := snd (get_aws_connection_params E_gen_fails 0%N s_on).

(** an enabled dict with an explicit user *)
Definition d_bob : dict := <["user" := VStr "bob"]> d_on.
Definition s_bob : state := st {[ 0%N := d_bob ]} ∅.

End Fixtures.


(** ** Token cache *)

Lemma get_token_cases (E : env) (key : cache_key) (s : state) :
  (exists t e, tcache s !! ckey key = Some (t, e) /\ time_get E < e /\
               get_token E key s = (Ok (Some t), s)) \/
  ((forall t e, tcache s !! ckey key = Some (t, e) -> e <= time_get E) /\
   get_token E key s = (Ok None, set_tcache (delete (ckey key) (tcache s)) s)).
Proof.
  unfold get_token.
  destruct (tcache s !! ckey key) as [[t e]|] eqn:Hl.
  - destruct (Z.ltb_spec (time_get E) e).
    + left. exists t, e. auto.
    + right. split; [|reflexivity]. intros ? ? [= <- <-]. lia.
  - right. split; [congruence|]. unfold set_tcache. rewrite delete_id by done.
    destruct s; reflexivity.
Qed.

(** [get_token] does not look at the heap. *)
Lemma get_token_set_heap (E : env) (key : cache_key) (h : gmap N dict) (s : state) :
  get_token E key (set_heap h s) =
    (fst (get_token E key s), set_heap h (snd (get_token E key s))).
Proof.
  unfold get_token. simpl.
  destruct (tcache s !! ckey key) as [[t e]|]; [destruct (_ <? _)|]; reflexivity.
Qed.


(** C3: [get_token] hands out a token only if an entry is present and the
    current time is strictly before its expiration, leaving the cache as
    it is; otherwise it returns [None] and removes the entry for the key
    (if any). *)
Theorem get_token_fresh (E : env) (key : cache_key) (s : state) :
  (exists t e, tcache s !! ckey key = Some (t, e) /\ time_get E < e /\
               get_token E key s = (Ok (Some t), s)) \/
  ((forall t e, tcache s !! ckey key = Some (t, e) -> e <= time_get E) /\
   get_token E key s = (Ok None, set_tcache (delete (ckey key) (tcache s)) s)).
Proof. apply get_token_cases. Qed.

(** C5: [set_token] stores the token with expiry [now + 600 - 30], i.e.
    the store time plus 570 seconds; no other entry changes. *)
Theorem set_token_expiry (E : env) (key : cache_key) (token : string) (s : state) :
  TOKEN_EXPIRATION_TIME = 600 /\
  set_token E key token s =
    (Ok (), set_tcache (<[ckey key := (token, time_set E + 570)]> (tcache s)) s).
Proof.
  split; [reflexivity|]. unfold set_token, TOKEN_EXPIRATION_TIME.
  replace (time_set E + 10 * 60 - 30) with (time_set E + 570) by lia. reflexivity.
Qed.



(** ** The enabled path *)

Lemma get_default_delete_ne (d : dict) (k k' : string) (dflt : value) :
  k <> k' -> get_default (delete k' d) k dflt = get_default d k dflt.
Proof. intros. unfold get_default. by rewrite lookup_delete_ne. Qed.

Lemma fresh_ne (s : state) (p : N) (d : dict) :
  heap s !! p = Some d -> fresh (dom (heap s)) <> p.
Proof.
  intros Hp Heq. apply (is_fresh (dom (heap s))). rewrite Heq.
  by apply elem_of_dom_2 with d.
Qed.

(** ** Passthrough *)

(** Lines 54-58. *)

Lemma disabled_run_with (E : env) (gu : exn + string) (p : N) (s : state) (d : dict) :
  heap s !! p = Some d -> enabled_in d = false ->
  let l := fresh (dom (heap s)) in
  get_aws_connection_params_with E gu p s =
    (Ok l, {| heap := <[l := delete "use_iam_auth" d]> (heap s);
              tcache := tcache s; gen_calls := gen_calls s |}).
Proof.
  intros Hp Hen l.
  unfold enabled_in in Hen.
  unfold get_aws_connection_params_with, bind, dict_copy. rewrite Hp. simpl.
  unfold dict_pop, set_heap. simpl. rewrite lookup_insert_eq. simpl.
  rewrite Hen. unfold ret. simpl. rewrite insert_insert_eq. reflexivity.
Qed.

Lemma disabled_run (E : env) (p : N) (s : state) (d : dict) :
  heap s !! p = Some d -> enabled_in d = false ->
  let l := fresh (dom (heap s)) in
  get_aws_connection_params E p s =
    (Ok l, {| heap := <[l := delete "use_iam_auth" d]> (heap s);
              tcache := tcache s; gen_calls := gen_calls s |}).
Proof. apply disabled_run_with. Qed.

(** C2: with [use_iam_auth] absent or falsy the result is a copy of the
    input without [use_iam_auth] ([region_name] kept); the token cache
    and the generation requests are unchanged, and no other dict is
    touched. *)
Theorem passthrough (E : env) (p : N) (s : state) (d : dict) :
  heap s !! p = Some d -> enabled_in d = false ->
  let l := fresh (dom (heap s)) in
  get_aws_connection_params E p s =
    (Ok l, {| heap := <[l := delete "use_iam_auth" d]> (heap s);
              tcache := tcache s; gen_calls := gen_calls s |}) /\
  l <> p /\ delete "use_iam_auth" d !! "region_name" = d !! "region_name".
Proof.
  intros Hp Hen l. split; [exact (disabled_run E p s d Hp Hen)|].
  split; [exact (fresh_ne s p d Hp)|]. by rewrite lookup_delete_ne.
Qed.

(** Lines 54-67: with the flag truthy, the copy loses [use_iam_auth] and
    [region_name] and the identity is [derived_key]; the rest of the call
    runs on that copy. *)
Lemma enabled_unfold_with (E : env) (gu : exn + string) (p : N) (s : state) (d : dict) :
  heap s !! p = Some d -> enabled_in d = true ->
  let l := fresh (dom (heap s)) in
  let d1 := delete "region_name" (delete "use_iam_auth" d) in
  let hostname := get_default d "host" (VStr "localhost") in
  let port := get_default d "port" (VInt 5432) in
  let user := get_default d "user" VNone in
  let region_name := get_default d "region_name" VNone in
  get_aws_connection_params_with E gu p s =
    (let* username := if truthy user then ret user else getuser gu in
     let cache_key := (hostname, port, username, region_name) in
     let* cached_token := get_token E cache_key in
     match cached_token with
     | Some t =>
         if truthy (VStr t) then
           let* _ := dict_setitem l "password" (VStr t) in ret l
         else generate_new_token E l region_name hostname port username cache_key
     | None => generate_new_token E l region_name hostname port username cache_key
     end) (set_heap (<[l := d1]> (heap s)) s).
Proof.
  intros Hp Hen l d1 hostname port user region_name. unfold enabled_in in Hen.
  unfold get_aws_connection_params_with, bind, dict_copy. rewrite Hp. simpl.
  unfold dict_pop, set_heap. simpl. rewrite lookup_insert_eq. simpl.
  rewrite Hen. unfold dict_get. simpl.
  repeat progress (rewrite ?lookup_insert_eq, ?insert_insert_eq; simpl).
  rewrite !(get_default_delete_ne _ _ "region_name") by done.
  rewrite !(get_default_delete_ne _ _ "use_iam_auth") by done.
  reflexivity.
Qed.

Lemma enabled_unfold (E : env) (p : N) (s : state) (d : dict)
  (hostname port username region_name : value) :
  heap s !! p = Some d -> enabled_in d = true ->
  derived_key (os_user E) d = (hostname, port, username, region_name) ->
  let l := fresh (dom (heap s)) in
  let d1 := delete "region_name" (delete "use_iam_auth" d) in
  get_aws_connection_params E p s =
    (let* cached_token := get_token E (hostname, port, username, region_name) in
     match cached_token with
     | Some t =>
         if truthy (VStr t) then
           let* _ := dict_setitem l "password" (VStr t) in ret l
         else generate_new_token E l region_name hostname port username
                (hostname, port, username, region_name)
     | None => generate_new_token E l region_name hostname port username
                 (hostname, port, username, region_name)
     end) (set_heap (<[l := d1]> (heap s)) s).
Proof.
  intros Hp Hen Hk l d1.
  unfold derived_key in Hk. injection Hk as <- <- <- <-.
  unfold get_aws_connection_params.
  rewrite (enabled_unfold_with E (inr (os_user E)) p s d Hp Hen).
  by destruct (truthy (get_default d "user" VNone)).
Qed.

(** A cache hit: an unexpired, non-empty token for the derived identity. *)
Lemma enabled_hit (E : env) (p : N) (s : state) (d : dict) (t : string) (e : Z) :
  heap s !! p = Some d -> enabled_in d = true ->
  tcache s !! ckey (derived_key (os_user E) d) = Some (t, e) ->
  time_get E < e -> t <> ""%string ->
  let l := fresh (dom (heap s)) in
  let d1 := delete "region_name" (delete "use_iam_auth" d) in
  get_aws_connection_params E p s =
    (Ok l, {| heap := <[l := <["password" := VStr t]> d1]> (heap s);
              tcache := tcache s; gen_calls := gen_calls s |}).
Proof.
  intros Hp Hen Hc Ht Hne l d1.
  destruct (derived_key (os_user E) d) as [[[h po] u] r] eqn:Hk.
  rewrite (enabled_unfold E p s d h po u r Hp Hen Hk).
  unfold bind, get_token. cbn [tcache set_heap]. rewrite Hc. simpl.
  destruct (Z.ltb_spec (time_get E) e); [|lia].
  assert (Hb : String.eqb t "" = false) by (apply String.eqb_neq; exact Hne).
  rewrite Hb. unfold dict_setitem. simpl. rewrite lookup_insert_eq. simpl.
  rewrite insert_insert_eq. reflexivity.
Qed.

(** A cache miss: no entry, an expired entry (removed by [get_token]), or
    an unexpired empty token. *)
Lemma enabled_miss (E : env) (p : N) (s : state) (d : dict)
  (hostname port username region_name : value) :
  heap s !! p = Some d -> enabled_in d = true ->
  derived_key (os_user E) d = (hostname, port, username, region_name) ->
  let k := (hostname, port, username, region_name) in
  (forall t e, tcache s !! ckey k = Some (t, e) -> time_get E < e -> t = ""%string) ->
  let l := fresh (dom (heap s)) in
  let d1 := delete "region_name" (delete "use_iam_auth" d) in
  let c1 := tcache (snd (get_token E k s)) in
  get_aws_connection_params E p s =
    match client_error E region_name with
    | Some err => (Raise err, {| heap := <[l := d1]> (heap s); tcache := c1;
                                 gen_calls := gen_calls s |})
    | None =>
        let call := (region_name, hostname, port, username) in
        match generate E (RdsClient region_name) hostname port username with
        | inl err => (Raise err, {| heap := <[l := d1]> (heap s); tcache := c1;
                                    gen_calls := call :: gen_calls s |})
        | inr token =>
            (Ok l, {| heap := <[l := <["password" := VStr token]> d1]> (heap s);
                      tcache := <[ckey k := (token, time_set E + 570)]> c1;
                      gen_calls := call :: gen_calls s |})
        end
    end.
Proof.
  intros Hp Hen Hk k Hmiss l d1 c1. unfold c1, k in *. clear c1 k.
  rename hostname into h, port into po, username into u, region_name into r.
  rewrite (enabled_unfold E p s d h po u r Hp Hen Hk).
  assert (Hgen : forall c, generate_new_token E l r h po u (h, po, u, r)
                   (set_heap (<[l := d1]> (heap s)) c) =
    match client_error E r with
    | Some err => (Raise err, {| heap := <[l := d1]> (heap s); tcache := tcache c;
                                 gen_calls := gen_calls c |})
    | None =>
        match generate E (RdsClient r) h po u with
        | inl err => (Raise err, {| heap := <[l := d1]> (heap s); tcache := tcache c;
                                    gen_calls := (r, h, po, u) :: gen_calls c |})
        | inr token =>
            (Ok l, {| heap := <[l := <["password" := VStr token]> d1]> (heap s);
                      tcache := <[ckey (h, po, u, r) := (token, time_set E + 570)]> (tcache c);
                      gen_calls := (r, h, po, u) :: gen_calls c |})
        end
    end).
  { intros c. unfold generate_new_token, bind, get_rds_client.
    destruct (client_error E r); [reflexivity|]. simpl.
    destruct (generate E (RdsClient r) h po u); [reflexivity|]. simpl.
    unfold dict_setitem, set_token, set_tcache, set_heap, TOKEN_EXPIRATION_TIME. simpl.
    rewrite lookup_insert_eq. simpl. rewrite insert_insert_eq.
    replace (time_set E + 10 * 60 - 30) with (time_set E + 570) by lia. reflexivity. }
  unfold bind. rewrite get_token_set_heap.
  destruct (get_token_cases E (h, po, u, r) s)
    as [(t & e & Hc & Ht & ->) | (_ & ->)]; simpl.
  - rewrite (Hmiss t e Hc Ht). apply (Hgen s).
  - exact (Hgen (set_tcache (delete (ckey (h, po, u, r)) (tcache s)) s)).
Qed.

(** Every lookup is either a hit or a miss. *)
Lemma hit_or_miss (E : env) (c : gmap cache_key (string * Z)) (k : cache_key) :
  (exists t e, c !! ckey k = Some (t, e) /\ time_get E < e /\ t <> ""%string) \/
  (forall t e, c !! ckey k = Some (t, e) -> time_get E < e -> t = ""%string).
Proof.
  destruct (c !! ckey k) as [[t e]|].
  - destruct (Z.ltb_spec (time_get E) e);
      [destruct (String.eqb_spec t "")|].
    + right. intros ? ? [= <- <-] _. done.
    + left. exists t, e. auto.
    + right. intros ? ? [= <- <-] ?. lia.
  - right. done.
Qed.

(** The cache left by [get_token]: the same, or the key's entry removed. *)
Lemma get_token_tcache (E : env) (k : cache_key) (s : state) :
  tcache (snd (get_token E k s)) = tcache s \/
  (exists t e, tcache s !! ckey k = Some (t, e) /\ e <= time_get E /\
   tcache (snd (get_token E k s)) = delete (ckey k) (tcache s)).
Proof.
  destruct (get_token_cases E k s) as [(t & e & _ & _ & ->) | (Hle & ->)]; [by left|].
  simpl. destruct (tcache s !! ckey k) as [[t e]|] eqn:Hc.
  - right. exists t, e. split; [done|]. split; [by apply (Hle t)|done].
  - left. by rewrite delete_id.
Qed.

(** ** C10 *)

(** C10: an unexpired empty token for the derived identity is a miss:
    a new token is requested and overwrites the entry. *)
Theorem empty_token_regenerates (E : env) (p : N) (s : state) (d : dict) (e : Z) (T : string) :
  heap s !! p = Some d -> enabled_in d = true ->
  let l := fresh (dom (heap s)) in
  let d1 := delete "region_name" (delete "use_iam_auth" d) in
  let '(hostname, port, username, region_name) := derived_key (os_user E) d in
  tcache s !! ckey (hostname, port, username, region_name) = Some (""%string, e) ->
  time_get E < e ->
  client_error E region_name = None ->
  generate E (RdsClient region_name) hostname port username = inr T ->
  get_aws_connection_params E p s =
    (Ok l, {| heap := <[l := <["password" := VStr T]> d1]> (heap s);
              tcache := <[ckey (hostname, port, username, region_name) :=
                            (T, time_set E + 570)]> (tcache s);
              gen_calls := (region_name, hostname, port, username) :: gen_calls s |}).
Proof.
  intros Hp Hen l d1.
  destruct (derived_key (os_user E) d) as [[[h po] u] r] eqn:Hk.
  intros Hc Ht Hcl Hg.
  pose proof (enabled_miss E p s d h po u r Hp Hen Hk) as Hm. cbv zeta in Hm.
  assert (Htc : tcache (snd (get_token E (h, po, u, r) s)) = tcache s).
  { unfold get_token. rewrite Hc. destruct (Z.ltb_spec (time_get E) e); [done|lia]. }
  rewrite Hm.
  - rewrite Hcl, Hg, Htc. reflexivity.
  - intros t e' Hc' _. rewrite Hc in Hc'. congruence.
Qed.

(** ** C4 *)

(** C4: once the time has reached the stored expiry, the next call for the
    identity requests a new token, caches it with a new expiry and uses it
    as the password. *)
Theorem expiry_regenerates (E : env) (p : N) (s : state) (d : dict)
  (t : string) (e : Z) (T : string) :
  heap s !! p = Some d -> enabled_in d = true ->
  let l := fresh (dom (heap s)) in
  let d1 := delete "region_name" (delete "use_iam_auth" d) in
  let '(hostname, port, username, region_name) := derived_key (os_user E) d in
  tcache s !! ckey (hostname, port, username, region_name) = Some (t, e) ->
  e <= time_get E ->
  client_error E region_name = None ->
  generate E (RdsClient region_name) hostname port username = inr T ->
  get_aws_connection_params E p s =
    (Ok l, {| heap := <[l := <["password" := VStr T]> d1]> (heap s);
              tcache := <[ckey (hostname, port, username, region_name) :=
                            (T, time_set E + 570)]> (tcache s);
              gen_calls := (region_name, hostname, port, username) :: gen_calls s |}).
Proof.
  intros Hp Hen l d1.
  destruct (derived_key (os_user E) d) as [[[h po] u] r] eqn:Hk.
  intros Hc Ht Hcl Hg.
  pose proof (enabled_miss E p s d h po u r Hp Hen Hk) as Hm. cbv zeta in Hm.
  assert (Htc : tcache (snd (get_token E (h, po, u, r) s)) =
                delete (ckey (h, po, u, r)) (tcache s)).
  { unfold get_token. rewrite Hc. destruct (Z.ltb_spec (time_get E) e); [lia|done]. }
  rewrite Hm.
  - rewrite Hcl, Hg, Htc, insert_delete_eq. reflexivity.
  - intros t' e' Hc' Ht'. rewrite Hc in Hc'. injection Hc' as <- <-. lia.
Qed.

(** ** C8 *)

(** C8: a successful enabled call returns a new dict (at a reference that
    was free) equal to the input without [use_iam_auth] and [region_name]
    and with [password] set to the token; the caller's dict and every
    other dict are left as they were. *)
Theorem enabled_frame (E : env) (p : N) (s s' : state) (d : dict) (l : N) :
  heap s !! p = Some d -> enabled_in d = true ->
  get_aws_connection_params E p s = (Ok l, s') ->
  (l ∉ dom (heap s)) /\ l <> p /\
  heap s' !! p = Some d /\
  (forall q, q <> l -> heap s' !! q = heap s !! q) /\
  (exists T, heap s' !! l =
     Some (<["password" := VStr T]> (delete "region_name" (delete "use_iam_auth" d)))).
Proof.
  intros Hp Hen Hrun.
  destruct (derived_key (os_user E) d) as [[[h po] u] r] eqn:Hk.
  assert (Hl : fresh (dom (heap s)) ∉ dom (heap s)) by apply is_fresh.
  pose proof (fresh_ne s p d Hp) as Hne.
  assert (Hheap : forall d1, heap s' = <[fresh (dom (heap s)) := d1]> (heap s) ->
            l = fresh (dom (heap s)) ->
            (l ∉ dom (heap s)) /\ l <> p /\ heap s' !! p = Some d /\
            (forall q, q <> l -> heap s' !! q = heap s !! q) /\
            heap s' !! l = Some d1).
  { intros d1 -> ->. split; [done|]. split; [done|].
    split; [by rewrite lookup_insert_ne|]. split; [|by rewrite lookup_insert_eq].
    intros q Hq. by rewrite lookup_insert_ne. }
  destruct (hit_or_miss E (tcache s) (h, po, u, r)) as [(t & e & Hc & Ht & Hnz) | Hmiss].
  - rewrite <- Hk in Hc.
    rewrite (enabled_hit E p s d t e Hp Hen Hc Ht Hnz) in Hrun.
    injection Hrun as <- <-.
    edestruct Hheap as (? & ? & ? & ? & ?); [reflexivity|reflexivity|].
    repeat split; eauto.
  - rewrite (enabled_miss E p s d h po u r Hp Hen Hk Hmiss) in Hrun.
    destruct (client_error E r); [discriminate|].
    destruct (generate E (RdsClient r) h po u) as [|T]; [discriminate|].
    injection Hrun as <- <-.
    edestruct Hheap as (? & ? & ? & ? & ?); [reflexivity|reflexivity|].
    repeat split; eauto.
Qed.

(** ** Reuse of a cached token *)

(** After a successful enabled call that produced a
    non-empty token [T], the cache holds [T] under the call's identity
    with some expiry [e]; a later call with the same identity (Python
    [==]) at a time before [e] sets [password] to [T], makes no token
    generation request and leaves the token cache unchanged. *)
Theorem cache_hit_reuses (E1 : env) (p : N) (s : state) (d : dict)
  (l1 : N) (s1 : state) (d1' : dict) (T : string) :
  heap s !! p = Some d -> enabled_in d = true ->
  get_aws_connection_params E1 p s = (Ok l1, s1) ->
  heap s1 !! l1 = Some d1' -> d1' !! "password" = Some (VStr T) ->
  T <> ""%string ->
  exists e,
    tcache s1 !! ckey (derived_key (os_user E1) d) = Some (T, e) /\
    forall (E2 : env) (p2 : N) (d2 : dict),
      heap s1 !! p2 = Some d2 -> enabled_in d2 = true ->
      ckey (derived_key (os_user E2) d2) = ckey (derived_key (os_user E1) d) ->
      time_get E2 < e ->
      let l2 := fresh (dom (heap s1)) in
      get_aws_connection_params E2 p2 s1 =
        (Ok l2, {| heap := <[l2 := <["password" := VStr T]>
                                   (delete "region_name" (delete "use_iam_auth" d2))]> (heap s1);
                   tcache := tcache s1; gen_calls := gen_calls s1 |}).
Proof.
  intros Hp Hen Hrun Hl1 Hpw HT.
  assert (Hfirst : exists e, tcache s1 !! ckey (derived_key (os_user E1) d) = Some (T, e)).
  { destruct (derived_key (os_user E1) d) as [[[h po] u] r] eqn:Hk.
    destruct (hit_or_miss E1 (tcache s) (h, po, u, r)) as [(t & e & Hc & Ht & Hnz) | Hmiss].
    - rewrite <- Hk in Hc.
      rewrite (enabled_hit E1 p s d t e Hp Hen Hc Ht Hnz) in Hrun.
      injection Hrun as <- <-. simpl in Hl1. rewrite lookup_insert_eq in Hl1.
      injection Hl1 as <-. rewrite lookup_insert_eq in Hpw. injection Hpw as <-.
      exists e. rewrite Hk in Hc. exact Hc.
    - rewrite (enabled_miss E1 p s d h po u r Hp Hen Hk Hmiss) in Hrun.
      destruct (client_error E1 r); [discriminate|].
      destruct (generate E1 (RdsClient r) h po u) as [|T']; [discriminate|].
      injection Hrun as <- <-. simpl in Hl1. rewrite lookup_insert_eq in Hl1.
      injection Hl1 as <-. rewrite lookup_insert_eq in Hpw. injection Hpw as <-.
      exists (time_set E1 + 570). simpl. by rewrite lookup_insert_eq. }
  destruct Hfirst as [e He]. exists e. split; [exact He|].
  intros E2 p2 d2 Hp2 Hen2 Hsame Ht l2.
  rewrite <- Hsame in He.
  exact (enabled_hit E2 p2 s1 d2 T e Hp2 Hen2 He Ht HT).
Qed.

(** ** C6 *)

(** A call only touches the cache entry of its own identity. *)
Lemma run_other_entries (E : env) (p : N) (s s' : state) (d : dict) (res : result N)
  (k1 : cache_key) :
  heap s !! p = Some d ->
  get_aws_connection_params E p s = (res, s') ->
  ckey k1 <> ckey (derived_key (os_user E) d) ->
  tcache s' !! ckey k1 = tcache s !! ckey k1.
Proof.
  intros Hp Hrun Hne.
  destruct (enabled_in d) eqn:Hen.
  2: { rewrite (disabled_run E p s d Hp Hen) in Hrun. by injection Hrun as <- <-. }
  destruct (derived_key (os_user E) d) as [[[h po] u] r] eqn:Hk.
  destruct (hit_or_miss E (tcache s) (h, po, u, r)) as [(t & e & Hc & Ht & Hnz) | Hmiss].
  - rewrite <- Hk in Hc.
    rewrite (enabled_hit E p s d t e Hp Hen Hc Ht Hnz) in Hrun.
    by injection Hrun as <- <-.
  - assert (Hc1 : tcache (snd (get_token E (h, po, u, r) s)) !! ckey k1 = tcache s !! ckey k1).
    { destruct (get_token_tcache E (h, po, u, r) s) as [-> | (t & e & _ & _ & ->)]; [done|].
      by rewrite lookup_delete_ne. }
    rewrite (enabled_miss E p s d h po u r Hp Hen Hk Hmiss) in Hrun.
    destruct (client_error E r); [by injection Hrun as <- <-|].
    destruct (generate E (RdsClient r) h po u); injection Hrun as <- <-; [done|].
    simpl. by rewrite lookup_insert_ne.
Qed.

(** C6: identities that differ (under Python [==]) have independent cache
    entries: a call leaves the entry of every other identity as it was,
    and a token it serves without a generation request is the unexpired
    entry of its own identity. Two dicts that differ only in [port]
    (5432 vs 5433) derive different identities. *)
Theorem identity_discrimination (E : env) (p : N) (s s' : state) (d : dict)
  (res : result N) (k1 : cache_key) :
  heap s !! p = Some d ->
  get_aws_connection_params E p s = (res, s') ->
  ckey k1 <> ckey (derived_key (os_user E) d) ->
  tcache s' !! ckey k1 = tcache s !! ckey k1 /\
  (forall l d' T, enabled_in d = true -> res = Ok l -> gen_calls s' = gen_calls s ->
     heap s' !! l = Some d' -> d' !! "password" = Some (VStr T) ->
     exists e, tcache s !! ckey (derived_key (os_user E) d) = Some (T, e) /\ time_get E < e) /\
  (forall (os : string) (d0 : dict),
     ckey (derived_key os (<["port" := VInt 5432]> d0)) <>
     ckey (derived_key os (<["port" := VInt 5433]> d0))).
Proof.
  intros Hp Hrun Hne. split; [exact (run_other_entries E p s s' d res k1 Hp Hrun Hne)|].
  split.
  - intros l d' T Hen -> Hcalls Hl Hpw.
    destruct (derived_key (os_user E) d) as [[[h po] u] r] eqn:Hk.
    destruct (hit_or_miss E (tcache s) (h, po, u, r)) as [(t & e & Hc & Ht & Hnz) | Hmiss].
    + rewrite <- Hk in Hc.
      rewrite (enabled_hit E p s d t e Hp Hen Hc Ht Hnz) in Hrun.
      injection Hrun as <- <-. simpl in Hl. rewrite lookup_insert_eq in Hl.
      injection Hl as <-. rewrite lookup_insert_eq in Hpw. injection Hpw as <-.
      exists e. rewrite <- Hk. auto.
    + rewrite (enabled_miss E p s d h po u r Hp Hen Hk Hmiss) in Hrun.
      destruct (client_error E r); [discriminate|].
      destruct (generate E (RdsClient r) h po u); [discriminate|].
      injection Hrun as _ <-. simpl in Hcalls.
      apply (f_equal (@List.length _)) in Hcalls. simpl in Hcalls. lia.
  - intros os d0. unfold derived_key, get_default. simpl.
    rewrite !lookup_insert_eq. intros [=].
Qed.

(** ** C7 *)

(** C7 (amended): the identity of an enabled call is
    [(host or "localhost", port or 5432, user if present and truthy else
    the OS user, region_name or None)]. On a hit the token of that
    identity's entry becomes the password without a generation request;
    on a miss (with the client constructed) the generation request is for
    that identity and a new token is stored under it. *)
Theorem identity_derivation (E : env) (p : N) (s : state) (d : dict) :
  heap s !! p = Some d -> enabled_in d = true ->
  let hostname := match d !! "host" with Some v => v | None => VStr "localhost" end in
  let port := match d !! "port" with Some v => v | None => VInt 5432 end in
  let username := match d !! "user" with
                  | Some v => if truthy v then v else VStr (os_user E)
                  | None => VStr (os_user E)
                  end in
  let region_name := match d !! "region_name" with Some v => v | None => VNone end in
  let id := (hostname, port, username, region_name) in
  let l := fresh (dom (heap s)) in
  let s' := snd (get_aws_connection_params E p s) in
  client_error E region_name = None ->
  (exists t e, tcache s !! ckey id = Some (t, e) /\ time_get E < e /\ t <> ""%string /\
     gen_calls s' = gen_calls s /\ (heap s' !! l ≫= lookup "password") = Some (VStr t)) \/
  ((forall t e, tcache s !! ckey id = Some (t, e) -> time_get E < e -> t = ""%string) /\
   gen_calls s' = (region_name, hostname, port, username) :: gen_calls s /\
   forall T, generate E (RdsClient region_name) hostname port username = inr T ->
     tcache s' !! ckey id = Some (T, time_set E + 570)).
Proof.
  intros Hp Hen hostname port username region_name id l s' Hcl.
  assert (Hk : derived_key (os_user E) d = id).
  { unfold derived_key, get_default, id, hostname, port, username, region_name.
    by destruct (d !! "user"). }
  unfold s'. clear s'. clearbody hostname port username region_name. subst id.
  destruct (hit_or_miss E (tcache s) (hostname, port, username, region_name))
    as [(t & e & Hc & Ht & Hnz) | Hmiss].
  - left. exists t, e. do 3 (split; [done|]).
    rewrite <- Hk in Hc.
    rewrite (enabled_hit E p s d t e Hp Hen Hc Ht Hnz). simpl.
    split; [done|]. simpl. rewrite lookup_insert_eq. simpl. by rewrite lookup_insert_eq.
  - right. split; [done|].
    rewrite (enabled_miss E p s d hostname port username region_name Hp Hen Hk Hmiss).
    rewrite Hcl.
    destruct (generate E (RdsClient region_name) hostname port username) as [err|T'];
      simpl; (split; [done|]); intros T HT; [discriminate|].
    injection HT as ->. by rewrite lookup_insert_eq.
Qed.

(** ** C9 *)

(** C9 (amended): on an enabled call whose identity has no unexpired
    non-empty token (a cache miss), a failure of the client construction
    or of [generate_db_auth_token] makes the call raise exactly that
    exception. Nothing is retried (at most the one generation request is
    made), and no entry is added or replaced: the token cache afterwards
    is the input cache, or the input cache with that identity's expired
    entry removed by [get_token]. *)
Theorem error_propagation (E : env) (p : N) (s : state) (d : dict) (err : exn) :
  heap s !! p = Some d -> enabled_in d = true ->
  let '(hostname, port, username, region_name) := derived_key (os_user E) d in
  let k := (hostname, port, username, region_name) in
  (forall t e, tcache s !! ckey k = Some (t, e) -> time_get E < e -> t = ""%string) ->
  (client_error E region_name = Some err \/
   (client_error E region_name = None /\
    generate E (RdsClient region_name) hostname port username = inl err)) ->
  exists s', get_aws_connection_params E p s = (Raise err, s') /\
    (gen_calls s' = gen_calls s \/
     gen_calls s' = (region_name, hostname, port, username) :: gen_calls s) /\
    (tcache s' = tcache s \/
     exists t e, tcache s !! ckey k = Some (t, e) /\ e <= time_get E /\
       tcache s' = delete (ckey k) (tcache s)).
Proof.
  intros Hp Hen.
  destruct (derived_key (os_user E) d) as [[[h po] u] r] eqn:Hk.
  intros k Hmiss Herr. unfold k in *. clear k.
  rewrite (enabled_miss E p s d h po u r Hp Hen Hk Hmiss).
  destruct Herr as [Hc | [Hc Hg]]; rewrite Hc; [|rewrite Hg];
    eexists; (split; [reflexivity|]); simpl;
    (split; [by auto|apply get_token_tcache]).
Qed.

(** ** Witnesses and counterexamples *)

Import Fixtures.

Lemma passthrough_witness :
  let l := fresh (dom (heap s_off)) in
  get_aws_connection_params (E_ok "tok") 0%N s_off =
    (Ok l, {| heap := <[l := delete "use_iam_auth" d_off]> (heap s_off);
              tcache := tcache s_off; gen_calls := gen_calls s_off |}) /\
  l <> 0%N /\ delete "use_iam_auth" d_off !! "region_name" = d_off !! "region_name".
Proof. apply (passthrough (E_ok "tok") 0%N s_off d_off); reflexivity. Defined.

Lemma expiry_regenerates_witness :
  get_aws_connection_params (E_ok "new") 0%N s_stale =
    (Ok 1%N, {| heap := <[1%N := <["password" := VStr "new"]>
                                 (delete "region_name" (delete "use_iam_auth" d_on))]> (heap s_stale);
                tcache := <[ckey key_local := ("new"%string, 671)]> (tcache s_stale);
                gen_calls := [(VNone, VStr "localhost", VInt 5432, VStr "alice")] |}).
Proof.
  exact (expiry_regenerates (E_ok "new") 0%N s_stale d_on "old" 50 "new"
           eq_refl eq_refl eq_refl ltac:(simpl; lia) eq_refl eq_refl).
Defined.

Lemma empty_token_regenerates_witness :
  get_aws_connection_params (E_ok "new") 0%N s_empty_tok =
    (Ok 1%N, {| heap := <[1%N := <["password" := VStr "new"]>
                                 (delete "region_name" (delete "use_iam_auth" d_on))]> (heap s_empty_tok);
                tcache := <[ckey key_local := ("new"%string, 671)]> (tcache s_empty_tok);
                gen_calls := [(VNone, VStr "localhost", VInt 5432, VStr "alice")] |}).
Proof.
  exact (empty_token_regenerates (E_ok "new") 0%N s_empty_tok d_on 200 "new"
           eq_refl eq_refl eq_refl eq_refl eq_refl eq_refl).
Defined.

Lemma enabled_frame_witness :
  (1%N ∉ dom (heap s_on)) /\ 1%N <> 0%N /\ heap s1_on !! 0%N = Some d_on /\
  (forall q, q <> 1%N -> heap s1_on !! q = heap s_on !! q) /\
  (exists T, heap s1_on !! 1%N =
     Some (<["password" := VStr T]> (delete "region_name" (delete "use_iam_auth" d_on)))).
Proof.
  exact (enabled_frame (E_ok "tok") 0%N s_on s1_on d_on 1%N eq_refl eq_refl eq_refl).
Defined.

Lemma cache_hit_reuses_witness :
  exists e,
    tcache s1_on !! ckey (derived_key (os_user (E_ok "tok")) d_on) = Some ("tok"%string, e) /\
    forall (E2 : env) (p2 : N) (d2 : dict),
      heap s1_on !! p2 = Some d2 -> enabled_in d2 = true ->
      ckey (derived_key (os_user E2) d2) = ckey (derived_key (os_user (E_ok "tok")) d_on) ->
      time_get E2 < e ->
      let l2 := fresh (dom (heap s1_on)) in
      get_aws_connection_params E2 p2 s1_on =
        (Ok l2, {| heap := <[l2 := <["password" := VStr "tok"]>
                                   (delete "region_name" (delete "use_iam_auth" d2))]> (heap s1_on);
                   tcache := tcache s1_on; gen_calls := gen_calls s1_on |}).
Proof.
  apply (cache_hit_reuses (E_ok "tok") 0%N s_on d_on 1%N s1_on
           {[ "password" := VStr "tok" ]} "tok"); try reflexivity.
  vm_compute. discriminate.
Defined.

Lemma identity_discrimination_witness :
  tcache s1_on !! ckey (VStr "localhost", VInt 5433, VStr "alice", VNone) =
    tcache s_on !! ckey (VStr "localhost", VInt 5433, VStr "alice", VNone) /\
  (forall l d' T, enabled_in d_on = true -> Ok 1%N = Ok l -> gen_calls s1_on = gen_calls s_on ->
     heap s1_on !! l = Some d' -> d' !! "password" = Some (VStr T) ->
     exists e, tcache s_on !! ckey (derived_key (os_user (E_ok "tok")) d_on) = Some (T, e) /\
               time_get (E_ok "tok") < e) /\
  (forall (os : string) (d0 : dict),
     ckey (derived_key os (<["port" := VInt 5432]> d0)) <>
     ckey (derived_key os (<["port" := VInt 5433]> d0))).
Proof.
  apply (identity_discrimination (E_ok "tok") 0%N s_on s1_on d_on (Ok 1%N)
           (VStr "localhost", VInt 5433, VStr "alice", VNone)); [reflexivity|reflexivity|].
  vm_compute. discriminate.
Defined.

Lemma identity_derivation_witness :
  gen_calls s1_on = [(VNone, VStr "localhost", VInt 5432, VStr "alice")] /\
  tcache s1_on !! ckey key_local = Some ("tok"%string, 671).
Proof.
  destruct (identity_derivation (E_ok "tok") 0%N s_on d_on eq_refl eq_refl eq_refl)
    as [(t & e & Hc & _) | (_ & Hcalls & Hstore)].
  - discriminate Hc.
  - split; [exact Hcalls|exact (Hstore "tok"%string eq_refl)].
Defined.

Lemma error_propagation_witness :
  exists s', get_aws_connection_params E_client_fails 0%N s_stale = (Raise "NoRegionError", s') /\
    (gen_calls s' = gen_calls s_stale \/
     gen_calls s' = (VNone, VStr "localhost", VInt 5432, VStr "alice") :: gen_calls s_stale) /\
    (tcache s' = tcache s_stale \/
     exists t e, tcache s_stale !! ckey key_local = Some (t, e) /\ e <= time_get E_client_fails /\
       tcache s' = delete (ckey key_local) (tcache s_stale)).
Proof.
  refine (error_propagation E_client_fails 0%N s_stale d_on "NoRegionError" eq_refl eq_refl _ _).
  - intros t e Hc Ht. vm_compute in Hc. injection Hc as <- <-. simpl in Ht. lia.
  - left. reflexivity.
Defined.


(** C7 counterexample: with [user] present but empty, the identity (the
    generation request and the cache entry) carries the OS user "alice",
    not the explicit user parameter "". *)
Lemma empty_user_parameter_cex :
  let s' := snd (get_aws_connection_params (E_ok "tok") 0%N s_empty_user) in
  d_empty_user !! "user" = Some (VStr "") /\
  gen_calls s' = [(VNone, VStr "localhost", VInt 5432, VStr "alice")] /\
  tcache s' !! ckey (VStr "localhost", VInt 5432, VStr "", VNone) = None /\
  tcache s' !! ckey key_local = Some ("tok"%string, 671).
Proof. vm_compute. repeat split; reflexivity. Qed.

(** C9 counterexample: the client construction fails on a call whose
    identity has an expired entry; the exception propagates, but the
    cache has changed: [get_token] removed the expired entry. *)
Lemma client_failure_drops_stale_entry_cex :
  fst (get_aws_connection_params E_client_fails 0%N s_stale) = Raise "NoRegionError"%string /\
  tcache s_stale !! ckey key_local = Some ("old"%string, 50) /\
  tcache (snd (get_aws_connection_params E_client_fails 0%N s_stale)) !! ckey key_local = None.
Proof. vm_compute. repeat split; reflexivity. Qed.

(** ** Sessions and the client cache *)

Import Clients.

Lemma make_key_inj (a b : value) : _make_key a = _make_key b -> a = b.
Proof. destruct a, b; simpl; congruence. Qed.

Lemma lru_find_Some (k : lru_key) (l : list (lru_key * client)) (c : client) :
  lru_find k l = Some c -> (k, c) ∈ l.
Proof.
  induction l as [|[k' c'] l IH]; simpl; [discriminate|].
  case_decide; [intros [= <-]; subst; left|intros; right; auto].
Qed.

Lemma lru_find_None (k : lru_key) (l : list (lru_key * client)) :
  lru_find k l = None <-> k ∉ l.*1.
Proof.
  induction l as [|[k' c'] l IH]; simpl.
  - split; [intros _; apply not_elem_of_nil|done].
  - case_decide as Hk; subst.
    + split; [discriminate|]. intros H. exfalso. apply H. left.
    + rewrite IH, elem_of_cons. naive_solver.
Qed.

Lemma keys_filter (P : lru_key * client -> Prop) `{!forall e, Decision (P e)}
    (l : list (lru_key * client)) (x : lru_key) :
  x ∈ (filter P l).*1 -> x ∈ l.*1.
Proof.
  intros (e & -> & He)%list_elem_of_fmap.
  apply list_elem_of_filter in He as [_ He]. by apply list_elem_of_fmap_2.
Qed.

Lemma NoDup_keys_filter (P : lru_key * client -> Prop) `{!forall e, Decision (P e)}
    (l : list (lru_key * client)) :
  NoDup l.*1 -> NoDup (filter P l).*1.
Proof.
  induction l as [|e l IH]; simpl; [done|].
  rewrite NoDup_cons. intros [Hn Hd]. rewrite filter_cons.
  case_decide; simpl; [|auto].
  rewrite NoDup_cons. split; [|auto].
  intros Hx. by apply Hn, (keys_filter P).
Qed.

Lemma lru_unlink_gone (k : lru_key) (l : list (lru_key * client)) :
  k ∉ (lru_unlink k l).*1.
Proof.
  unfold lru_unlink. intros (e & -> & He)%list_elem_of_fmap.
  apply list_elem_of_filter in He as [? _]. done.
Qed.

Lemma lru_unlink_Forall (Q : lru_key * client -> Prop) (k : lru_key)
    (l : list (lru_key * client)) :
  Forall Q l -> Forall Q (lru_unlink k l).
Proof.
  rewrite !Forall_forall. unfold lru_unlink.
  intros HQ e He%list_elem_of_filter. apply HQ, He.
Qed.

(** The undecorated body leaves the cache alone; a client it returns is
    for the requested region and was built by the calling thread's
    session, which is the one it already had or a new one. *)
Lemma body_spec (CE : cenv) (t : N) (r : value) (s s' : cstate) (res : result client) :
  get_rds_client_body CE t r s = (res, s') ->
  lru s' = lru s /\
  (sessions s' = sessions s \/
   (sessions s !! t = None /\ exists sess, sessions s' = <[t := sess]> (sessions s))) /\
  (forall c, res = Ok c ->
     client_region c = r /\ (next_id s < next_id s')%N /\
     exists sess, sessions s' !! t = Some sess /\ client_session c = session_id sess).
Proof.
  unfold get_rds_client_body, _get_session, session_client.
  destruct (sessions s !! t) as [sess|] eqn:Ht.
  - destruct (client_build_error CE (session_region sess) r);
      intros [= <- <-]; simpl; (split; [done|]); (split; [by left|]);
      intros c [= <-]; simpl; split_and!; [done|lia|eauto].
  - destruct (session_error CE r); [intros [= <- <-]; simpl; split_and!; [done|by left|discriminate]|].
    simpl. destruct (client_build_error CE r r);
      intros [= <- <-]; simpl; (split; [done|]);
      (split; [right; split; [done|eauto]|]);
      intros c [= <-]; simpl; split_and!; [done|lia|].
    eexists. by rewrite lookup_insert_eq.
Qed.

Lemma removelast_facts (l : list (lru_key * client)) :
  (forall e, e ∈ removelast l -> e ∈ l) /\
  (NoDup l.*1 -> NoDup (removelast l).*1) /\
  List.length (removelast l) = pred (List.length l).
Proof.
  destruct l as [|e l]; [simpl; split_and!; [intros ? []%not_elem_of_nil|done|done]|].
  pose proof (app_removelast_last e (l := e :: l) ltac:(discriminate)) as H.
  remember (removelast (e :: l)) as p. remember (List.last (e :: l) e) as a.
  rewrite H. split_and!.
  - intros x Hx. apply elem_of_app. by left.
  - rewrite fmap_app, NoDup_app. tauto.
  - rewrite length_app. simpl. lia.
Qed.

Lemma lru_unlink_absent (k : lru_key) (l : list (lru_key * client)) :
  k ∉ l.*1 -> lru_unlink k l = l.
Proof.
  unfold lru_unlink. induction l as [|[k' c'] l IH]; simpl; [done|].
  rewrite elem_of_cons. intros Hk. rewrite filter_cons.
  case_decide as Hne; simpl in *; [|naive_solver].
  f_equal. apply IH. naive_solver.
Qed.

(** After a successful call the requested key is the most recently used
    link, and appears once. *)
Lemma get_rds_client_front (CE : cenv) (t : N) (r : value) (s s' : cstate) (c : client) :
  _get_rds_client CE t r s = (Ok c, s') ->
  exists rest, lru s' = (_make_key r, c) :: rest /\ _make_key r ∉ rest.*1.
Proof.
  unfold _get_rds_client. cbv zeta.
  destruct (lru_find (_make_key r) (lru s)) as [c0|] eqn:Hf.
  - intros [= <- <-]. simpl. eexists. split; [done|]. apply lru_unlink_gone.
  - apply lru_find_None in Hf.
    destruct (get_rds_client_body CE t r s) as [[c1|e] s1] eqn:Hb; [|discriminate].
    apply body_spec in Hb as (Hl & _ & _).
    intros [= <- <-]. simpl. eexists. split; [done|].
    rewrite Hl. destruct (Nat.ltb _ _); [done|].
    intros Hx. apply Hf. apply list_elem_of_fmap in Hx as (e & -> & He).
    apply list_elem_of_fmap_2. by apply removelast_facts.
Qed.

Lemma get_rds_client_sessions (CE : cenv) (t : N) (r : value) (s s' : cstate)
    (res : result client) :
  _get_rds_client CE t r s = (res, s') ->
  sessions s' = sessions s \/
  (sessions s !! t = None /\ exists sess, sessions s' = <[t := sess]> (sessions s)).
Proof.
  unfold _get_rds_client. cbv zeta. destruct (lru_find (_make_key r) (lru s)).
  - intros [= <- <-]. by left.
  - destruct (get_rds_client_body CE t r s) as [[c1|e] s1] eqn:Hb;
      apply body_spec in Hb as (_ & Hs & _); intros [= <- <-]; exact Hs.
Qed.

(** [_get_rds_client] keeps the cache well formed: every key at most once,
    never more than [maxsize] = 32 links, each link under its client's
    region; whether the call hits, misses, evicts or raises. *)
Theorem lru_wf_preserved (CE : cenv) (t : N) (r : value) (s s' : cstate)
    (res : result client) :
  lru_wf (lru s) -> _get_rds_client CE t r s = (res, s') -> lru_wf (lru s').
Proof.
  intros (Hnd & Hlen & Hfa). unfold _get_rds_client. cbv zeta.
  destruct (lru_find (_make_key r) (lru s)) as [c0|] eqn:Hf.
  - intros [= <- <-]. simpl. apply lru_find_Some in Hf.
    split_and!.
    + simpl. rewrite NoDup_cons. split; [apply lru_unlink_gone|].
      by apply NoDup_keys_filter.
    + simpl. unfold lru_unlink.
      pose proof (length_filter_lt (fun e => e.1 <> _make_key r) (lru s) (_make_key r, c0) Hf)
        as Hlt. simpl in Hlt. specialize (Hlt ltac:(tauto)). lia.
    + constructor; [|by apply lru_unlink_Forall].
      rewrite Forall_forall in Hfa. exact (Hfa _ Hf).
  - apply lru_find_None in Hf.
    destruct (get_rds_client_body CE t r s) as [[c1|e] s1] eqn:Hb;
      apply body_spec in Hb as (Hl & _ & Hc); intros [= <- <-]; simpl;
      [|rewrite Hl; split_and!; assumption].
    destruct (Hc c1 eq_refl) as (Hreg & _).
    rewrite Hl. destruct (Nat.ltb (List.length (lru s)) LRU_MAXSIZE) eqn:Hlt.
    + apply Nat.ltb_lt in Hlt. split_and!; simpl.
      * by apply NoDup_cons.
      * lia.
      * constructor; [simpl; by rewrite Hreg|done].
    + apply Nat.ltb_ge in Hlt.
      destruct (removelast_facts (lru s)) as (Hsub & Hnd' & Hlen').
      split_and!; simpl.
      * apply NoDup_cons. split; [|auto].
        intros (e & Heq & He)%list_elem_of_fmap. apply Hf. rewrite Heq.
        apply list_elem_of_fmap_2, Hsub, He.
      * rewrite Hlen'. unfold LRU_MAXSIZE in *. lia.
      * constructor; [simpl; by rewrite Hreg|].
        rewrite Forall_forall in Hfa |- *. intros e He. apply Hfa, Hsub, He.
Qed.

(** On a well-formed cache a client returned for [region_name] is a client
    for exactly that region. *)
Theorem client_region_matches (CE : cenv) (t : N) (r : value) (s s' : cstate)
    (c : client) :
  lru_wf (lru s) -> _get_rds_client CE t r s = (Ok c, s') ->
  client_region c = r.
Proof.
  intros (_ & _ & Hfa). unfold _get_rds_client. cbv zeta.
  destruct (lru_find (_make_key r) (lru s)) as [c0|] eqn:Hf.
  - intros [= <- _]. apply lru_find_Some in Hf.
    rewrite Forall_forall in Hfa. symmetry. apply make_key_inj. exact (Hfa _ Hf).
  - destruct (get_rds_client_body CE t r s) as [[c1|e] s1] eqn:Hb; [|discriminate].
    apply body_spec in Hb as (_ & _ & Hc). intros [= <- _].
    by destruct (Hc c1 eq_refl) as [-> _].
Qed.

(** Once [_get_rds_client] has returned a client for a region, calling it
    again with the same region, from any thread, returns the very same
    client and leaves everything as it was: no session is created for the
    second thread and no new client is built. *)
Theorem client_reused (CE : cenv) (t1 t2 : N) (r : value) (s s1 : cstate) (c : client) :
  _get_rds_client CE t1 r s = (Ok c, s1) ->
  _get_rds_client CE t2 r s1 = (Ok c, s1).
Proof.
  intros H. destruct (get_rds_client_front CE t1 r s s1 c H) as (rest & Hl & Hn).
  unfold _get_rds_client. cbv zeta. rewrite Hl. simpl. rewrite decide_True by done.
  f_equal. unfold lru_unlink. rewrite filter_cons, decide_False by (intros Hne; by apply Hne).
  fold (lru_unlink (_make_key r) rest). rewrite lru_unlink_absent by exact Hn.
  rewrite <- Hl. by destruct s1.
Qed.

(** An exception is not cached: the cache is unchanged, the region was not
    in it (a hit never raises), and the only other effect is the session
    the calling thread may have been given before the client failed. *)
Theorem client_exception_not_cached (CE : cenv) (t : N) (r : value) (s s' : cstate)
    (e : exn) :
  _get_rds_client CE t r s = (Raise e, s') ->
  lru s' = lru s /\ lru_find (_make_key r) (lru s) = None /\
  (sessions s' = sessions s \/
   (sessions s !! t = None /\ exists sess, sessions s' = <[t := sess]> (sessions s))).
Proof.
  intros H. pose proof (get_rds_client_sessions CE t r s s' _ H) as Hs.
  revert H. unfold _get_rds_client. cbv zeta.
  destruct (lru_find (_make_key r) (lru s)) as [c0|] eqn:Hf; [discriminate|].
  destruct (get_rds_client_body CE t r s) as [[c1|e1] s1] eqn:Hb; [discriminate|].
  apply body_spec in Hb as (Hl & _ & _). intros [= <- <-]. auto.
Qed.

(** A miss on a full cache evicts the least recently used link (the last
    one) and keeps the others in order behind the new one. *)
Theorem lru_evicts_least_recent (CE : cenv) (t : N) (r : value) (s s' : cstate)
    (c : client) (older : list (lru_key * client)) (oldest : lru_key * client) :
  lru_wf (lru s) -> lru s = older ++ [oldest] ->
  List.length (lru s) = LRU_MAXSIZE -> lru_find (_make_key r) (lru s) = None ->
  _get_rds_client CE t r s = (Ok c, s') ->
  lru s' = (_make_key r, c) :: older /\ lru_find oldest.1 (lru s') = None.
Proof.
  intros (Hnd & _ & _) Hsplit Hfull Hf. unfold _get_rds_client. cbv zeta. rewrite Hf.
  destruct (get_rds_client_body CE t r s) as [[c1|e1] s1] eqn:Hb; [|discriminate].
  apply body_spec in Hb as (Hl & _ & _). intros [= <- <-]. cbn [lru].
  rewrite Hl, Hfull, Nat.ltb_irrefl, Hsplit, removelast_last.
  split; [done|].
  apply lru_find_None. simpl. rewrite elem_of_cons. intros [Heq|Hin].
  - apply lru_find_None in Hf. apply Hf. rewrite Hsplit, fmap_app, elem_of_app.
    right. rewrite <- Heq. left.
  - rewrite Hsplit, fmap_app, NoDup_app in Hnd. destruct Hnd as (_ & Hd & _).
    apply (Hd _ Hin). simpl. left.
Qed.

(** ** Sessions, the token cache and re-resolution *)

Lemma run_shape (E : env) (p : N) (s s' : state) (d : dict) (res : result N) :
  heap s !! p = Some d ->
  get_aws_connection_params E p s = (res, s') ->
  let l := fresh (dom (heap s)) in
  (exists d', heap s' = <[l := d']> (heap s) /\ d' !! "use_iam_auth" = None) /\
  (res = Ok l \/ exists e, res = Raise e) /\
  (gen_calls s' = gen_calls s \/ exists c, gen_calls s' = c :: gen_calls s).
Proof.
  intros Hp Hrun. cbv zeta.
  destruct (enabled_in d) eqn:Hen.
  - destruct (derived_key (os_user E) d) as [[[h po] u] r] eqn:Hk.
    destruct (hit_or_miss E (tcache s) (derived_key (os_user E) d))
      as [(t & e & H1 & H2 & H3)|Hm].
    + rewrite (enabled_hit E p s d t e Hp Hen H1 H2 H3) in Hrun.
      injection Hrun as <- <-. simpl. split_and!; [|by left|by left].
      eexists. split; [done|]. by simplify_map_eq.
    + rewrite Hk in Hm.
      rewrite (enabled_miss E p s d h po u r Hp Hen Hk Hm) in Hrun.
      destruct (client_error E r) as [err|];
        [|destruct (generate E (RdsClient r) h po u) as [err|token]];
        injection Hrun as <- <-; simpl; split_and!; eauto;
        eexists; (split; [done|]); by simplify_map_eq.
  - rewrite (disabled_run E p s d Hp Hen) in Hrun. injection Hrun as <- <-. simpl.
    split_and!; [|by left|by left]. eexists. split; [done|]. by simplify_map_eq.
Qed.

(** [_get_session] gives a thread one session for its lifetime: once a
    call in thread [t] has returned a session, every later call in [t]
    returns that same session, whatever region it asks for, and changes
    nothing. Other threads' sessions are never touched. *)
Theorem session_per_thread (CE : cenv) (t : N) (r1 r2 : value) (s s1 : cstate)
    (sess : session) :
  _get_session CE t r1 s = (Ok sess, s1) ->
  _get_session CE t r2 s1 = (Ok sess, s1) /\
  (forall t', t' <> t -> sessions s1 !! t' = sessions s !! t').
Proof.
  unfold _get_session. destruct (sessions s !! t) as [sess0|] eqn:Ht.
  - intros [= <- <-]. by rewrite Ht.
  - destruct (session_error CE r1); [discriminate|].
    intros [= <- <-]. simpl. rewrite lookup_insert_eq. split; [done|].
    intros t' Hne. by rewrite lookup_insert_ne.
Qed.

(** On a miss, the client is built by the calling thread's session: the
    one the thread already had (even if it was made for another region),
    or a new one stored for it. *)
Theorem client_uses_caller_session (CE : cenv) (t : N) (r : value) (s s' : cstate)
    (c : client) :
  lru_find (_make_key r) (lru s) = None ->
  _get_rds_client CE t r s = (Ok c, s') ->
  exists sess, sessions s' !! t = Some sess /\ client_session c = session_id sess /\
    (forall sess0, sessions s !! t = Some sess0 -> sess = sess0).
Proof.
  intros Hf. unfold _get_rds_client. cbv zeta. rewrite Hf.
  destruct (get_rds_client_body CE t r s) as [[c1|e1] s1] eqn:Hb; [|discriminate].
  apply body_spec in Hb as (_ & Hs & Hc). intros [= <- <-]. simpl.
  destruct (Hc c1 eq_refl) as (_ & _ & sess & Hsess & Hid).
  exists sess. split_and!; [done|done|].
  intros sess0 H0. destruct Hs as [Hs|[Hn _]]; [|congruence].
  rewrite Hs in Hsess. congruence.
Qed.

(** [_get_rds_client] never replaces or drops a session, and never sets
    one for a thread other than the caller's. *)
Theorem sessions_frame (CE : cenv) (t : N) (r : value) (s s' : cstate)
    (res : result client) :
  _get_rds_client CE t r s = (res, s') ->
  (forall t', t' <> t -> sessions s' !! t' = sessions s !! t') /\
  (forall sess, sessions s !! t = Some sess -> sessions s' !! t = Some sess).
Proof.
  intros H. destruct (get_rds_client_sessions CE t r s s' res H)
    as [Hs|(Hn & sess & Hs)]; rewrite Hs.
  - split; auto.
  - split; [intros t' Hne; by rewrite lookup_insert_ne|congruence].
Qed.

(** [set_token] then [get_token] under a Python-equal key: the token comes
    back while the clock is before its expiry; from then on the lookup
    misses and removes the entry, leaving no trace of what the key held
    before. *)
Theorem token_roundtrip (E : env) (k k' : cache_key) (tok : string) (s : state) :
  ckey k' = ckey k ->
  let s1 := snd (set_token E k tok s) in
  get_token E k' s1 =
    if time_get E <? time_set E + TOKEN_EXPIRATION_TIME - 30
    then (Ok (Some tok), s1)
    else (Ok None, set_tcache (delete (ckey k) (tcache s)) s).
Proof.
  intros Hk. cbv zeta. unfold get_token, set_token. simpl.
  rewrite Hk, lookup_insert_eq.
  destruct (time_get E <? _); [done|].
  unfold set_tcache. simpl. by rewrite delete_insert_eq.
Qed.


(** A call makes at most one [generate_db_auth_token] request, whether it
    succeeds or raises. *)
Theorem at_most_one_generation (E : env) (p : N) (s s' : state) (d : dict)
    (res : result N) :
  heap s !! p = Some d ->
  get_aws_connection_params E p s = (res, s') ->
  gen_calls s' = gen_calls s \/ exists c, gen_calls s' = c :: gen_calls s.
Proof.
  intros Hp Hrun. by destruct (run_shape E p s s' d res Hp Hrun) as (_ & _ & H).
Qed.

(** Resolving the parameters a successful call returned is a plain copy:
    they no longer ask for IAM authentication, so no token is looked up or
    generated, under any environment. *)
Theorem resolve_output_again (E : env) (p : N) (s s1 : state) (d : dict) (l : N) :
  heap s !! p = Some d ->
  get_aws_connection_params E p s = (Ok l, s1) ->
  exists d', heap s1 !! l = Some d' /\ d' !! "use_iam_auth" = None /\
    forall E' : env,
      let l' := fresh (dom (heap s1)) in
      get_aws_connection_params E' l s1 =
        (Ok l', {| heap := <[l' := d']> (heap s1);
                   tcache := tcache s1; gen_calls := gen_calls s1 |}).
Proof.
  intros Hp Hrun.
  destruct (run_shape E p s s1 d (Ok l) Hp Hrun) as ((d' & Hh & Hu) & [Hl|[e He]] & _);
    [|discriminate].
  injection Hl as ->. exists d'.
  assert (Hd' : heap s1 !! fresh (dom (heap s)) = Some d') by (rewrite Hh; apply lookup_insert_eq).
  split_and!; [done|done|]. intros E'. cbv zeta.
  assert (Hoff : enabled_in d' = false) by (unfold enabled_in, get_default; by rewrite Hu).
  rewrite (disabled_run E' _ s1 d' Hd' Hoff). by rewrite delete_id.
Qed.

Lemma lru_wf_preserved_witness : lru_wf (lru cs_full').
Proof.
  apply (lru_wf_preserved CE_ok 0%N us_east cs_full cs_full' (Ok c_full)); [(apply (bool_decide_unpack _); vm_compute; exact I)|(vm_compute; reflexivity)].
Defined.

Lemma client_region_matches_witness : client_region c_full = us_east.
Proof.
  apply (client_region_matches CE_ok 0%N us_east cs_full cs_full' c_full); [(apply (bool_decide_unpack _); vm_compute; exact I)|(vm_compute; reflexivity)].
Defined.

Lemma client_reused_witness : _get_rds_client CE_ok 7%N us_east cs1 = (Ok c1, cs1).
Proof.
  apply (client_reused CE_ok 0%N 7%N us_east cs0 cs1 c1). vm_compute. reflexivity.
Defined.

Lemma client_exception_not_cached_witness :
  lru cs_err = lru cs0 /\ lru_find (_make_key us_east) (lru cs0) = None /\
  (sessions cs_err = sessions cs0 \/
   (sessions cs0 !! 0%N = None /\ exists sess, sessions cs_err = <[0%N := sess]> (sessions cs0))).
Proof.
  apply (client_exception_not_cached CE_client_fails 0%N us_east cs0 cs_err "NoRegionError").
  vm_compute. reflexivity.
Defined.

Lemma lru_evicts_least_recent_witness :
  lru cs_full' = (_make_key us_east, c_full) :: older_links /\ lru_find oldest_link.1 (lru cs_full') = None.
Proof.
  apply (lru_evicts_least_recent CE_ok 0%N us_east cs_full cs_full' c_full older_links oldest_link);
    [(apply (bool_decide_unpack _); vm_compute; exact I)|reflexivity|(vm_compute; reflexivity)|(vm_compute; reflexivity)|(vm_compute; reflexivity)].
Defined.

Lemma session_per_thread_witness :
  _get_session CE_ok 3%N eu_west ss1 = (Ok sess1, ss1) /\
  (forall t', t' <> 3%N -> sessions ss1 !! t' = sessions cs0 !! t').
Proof. apply (session_per_thread CE_ok 3%N us_east eu_west cs0 ss1 sess1). vm_compute. reflexivity. Defined.

Lemma client_uses_caller_session_witness :
  exists sess, sessions cs_full' !! 0%N = Some sess /\ client_session c_full = session_id sess /\
    (forall sess0, sessions cs_full !! 0%N = Some sess0 -> sess = sess0).
Proof.
  apply (client_uses_caller_session CE_ok 0%N us_east cs_full cs_full' c_full);
    [(vm_compute; reflexivity)|(vm_compute; reflexivity)].
Defined.

Lemma sessions_frame_witness :
  (forall t', t' <> 0%N -> sessions cs1 !! t' = sessions cs0 !! t') /\
  (forall sess, sessions cs0 !! 0%N = Some sess -> sessions cs1 !! 0%N = Some sess).
Proof. apply (sessions_frame CE_ok 0%N us_east cs0 cs1 (Ok c1)). vm_compute. reflexivity. Defined.

Lemma token_roundtrip_witness :
  get_token (E_ok "tok") key_local (snd (set_token (E_ok "tok") key_local "tok" s_on)) =
    (Ok (Some "tok"%string), snd (set_token (E_ok "tok") key_local "tok" s_on)).
Proof. exact (token_roundtrip (E_ok "tok") key_local key_local "tok" s_on eq_refl). Defined.


Lemma at_most_one_generation_witness :
  gen_calls s_gen_err = gen_calls s_on \/ exists c, gen_calls s_gen_err = c :: gen_calls s_on.
Proof.
  apply (at_most_one_generation E_gen_fails 0%N s_on s_gen_err d_on (Raise "ClientError"));
    [reflexivity|vm_compute; reflexivity].
Defined.

Lemma resolve_output_again_witness :
  exists d', heap s1_on !! 1%N = Some d' /\ d' !! "use_iam_auth" = None /\
    forall E' : env,
      let l' := fresh (dom (heap s1_on)) in
      get_aws_connection_params E' 1%N s1_on =
        (Ok l', {| heap := <[l' := d']> (heap s1_on);
                   tcache := tcache s1_on; gen_calls := gen_calls s1_on |}).
Proof.
  apply (resolve_output_again (E_ok "tok") 0%N s_on s1_on d_on 1%N);
    [reflexivity|vm_compute; reflexivity].
Defined.

(** ** [getpass.getuser()] *)

(** When the user parameter is absent or falsy and [getpass.getuser()]
    raises, the call raises that exception before looking at the token
    cache: the cache and the generation requests are untouched, and only
    the copy of [params] has been made. *)
Theorem getuser_error_propagates (E : env) (e : exn) (p : N) (s : state) (d : dict) :
  heap s !! p = Some d -> enabled_in d = true ->
  truthy (get_default d "user" VNone) = false ->
  let l := fresh (dom (heap s)) in
  get_aws_connection_params_with E (inl e) p s =
    (Raise e, {| heap := <[l := delete "region_name" (delete "use_iam_auth" d)]> (heap s);
                 tcache := tcache s; gen_calls := gen_calls s |}).
Proof.
  intros Hp Hen Hu. cbv zeta.
  rewrite (enabled_unfold_with E (inl e) p s d Hp Hen). cbv zeta.
  rewrite Hu. reflexivity.
Qed.

(** [getpass.getuser()] is consulted only by an enabled call without a
    truthy user parameter: otherwise its outcome, a name or an exception,
    does not matter. *)
Theorem getuser_only_without_user (E : env) (gu gu' : exn + string) (p : N) (s : state)
    (d : dict) :
  heap s !! p = Some d ->
  enabled_in d = false \/ truthy (get_default d "user" VNone) = true ->
  get_aws_connection_params_with E gu p s = get_aws_connection_params_with E gu' p s.
Proof.
  intros Hp Hcase. destruct (enabled_in d) eqn:Hen.
  - destruct Hcase as [Hf|Hu]; [discriminate|].
    rewrite !(enabled_unfold_with E _ p s d Hp Hen). cbv zeta.
    rewrite Hu. reflexivity.
  - by rewrite !(disabled_run_with E _ p s d Hp Hen).
Qed.

Lemma getuser_error_propagates_witness :
  get_aws_connection_params_with (E_ok "tok") (inl "OSError") 0%N s_on =
    (Raise "OSError", {| heap := <[fresh (dom (heap s_on)) :=
                                   delete "region_name" (delete "use_iam_auth" d_on)]> (heap s_on);
                         tcache := tcache s_on; gen_calls := gen_calls s_on |}).
Proof.
  exact (getuser_error_propagates (E_ok "tok") "OSError" 0%N s_on d_on eq_refl eq_refl eq_refl).
Defined.

Lemma getuser_only_without_user_witness :
  get_aws_connection_params_with (E_ok "tok") (inl "OSError") 0%N s_bob =
    get_aws_connection_params_with (E_ok "tok") (inr "alice") 0%N s_bob.
Proof.
  apply (getuser_only_without_user (E_ok "tok") (inl "OSError") (inr "alice") 0%N s_bob d_bob);
    [reflexivity|right; reflexivity].
Defined.
